(** * RouteMap: the client session of the accessible route planner

    A shallow embedding of [src/frontend/src/components/RouteMap.tsx]
    (the styled revision, first document of the file): the component
    state held by the four [useState] hooks, the map click handler of
    [ClickToSetPoints], the [fetchRoutes] handler with its [try]/[catch],
    the route buttons, the two detail panels and the [FitToRoutes] effect.

    Modelling conventions.
    - A JavaScript [number] is a rational ([Q]); IEEE rounding is not
      modelled.  A [[number, number]] tuple is a pair.
    - [null] / [undefined] are [None].  Fields the component reads through
      [?.] or a truthiness guard are [option]s.
    - React re-renders after every discrete event, so each handler reads
      the state left by the previous one; a handler is a function of the
      state it starts from.
    - [alert], [console.*] and [fetch] are recorded in an effect trace. *)

From Stdlib Require Import List String Ascii Bool Arith ZArith QArith Qminmax Qround Lia.
From Stdlib Require Import DecimalString.
Import ListNotations.

Local Open Scope string_scope.

(* ================================================================== *)
(** ** Data model *)

Definition number : Type := Q.

(** [[number, number]]: latitude first, longitude second. *)
Definition LatLng : Type := (number * number)%type.

Record ElevationMetrics := {
  ascent_m : number;
  descent_m : number;
  max_slope_percent : number;
  steep_gt5 : number;
  steep_gt8 : number
}.

(** One element of [elevation_profile]. *)
Record ElevationSample := {
  i : nat;
  lat : number;
  lon : number;
  elev_m : number;
  dist_m : number
}.

(** [Record<string, number>]: an object used as a map; [Object.entries]
    lists it in insertion order, hence an association list. *)
Definition Tally : Type := list (string * number).

Record OsmSummary := {
  steps_count : number;
  surfaces : Tally;
  smoothness : Tally;
  highway_types : Tally;
  kerb_nodes_count : number;
  unknown_surface_ratio : number;
  sample_points_used : number
}.

(** [type Route].  The three nested members are declared mandatory but the
    component reads each of them behind [?.] or [&&], so they may be
    missing in what the backend sends. *)
Record Route := {
  id : string;
  geometry : list LatLng;
  distance_m : number;
  duration_s : number;
  elevation_metrics : option ElevationMetrics;
  elevation_profile : option (list ElevationSample);
  osm_summary : option OsmSummary;
  accessibility_score : number;
  flags : list string
}.

(** The four [useState] cells of [RouteMap]. *)
Record State := {
  routes : list Route;
  start : option LatLng;
  end_ : option LatLng;
  selectedRouteId : option string
}.

(** [useState] initial values. *)
Definition initial : State :=
  {| routes := []; start := None; end_ := None; selectedRouteId := None |}.

Definition setRoutes (rs : list Route) (s : State) : State :=
  {| routes := rs; start := start s; end_ := end_ s;
     selectedRouteId := selectedRouteId s |}.

Definition setStart (p : option LatLng) (s : State) : State :=
  {| routes := routes s; start := p; end_ := end_ s;
     selectedRouteId := selectedRouteId s |}.

Definition setEnd (p : option LatLng) (s : State) : State :=
  {| routes := routes s; start := start s; end_ := p;
     selectedRouteId := selectedRouteId s |}.

Definition setSelectedRouteId (x : option string) (s : State) : State :=
  {| routes := routes s; start := start s; end_ := end_ s;
     selectedRouteId := x |}.

(* ================================================================== *)
(** ** ClickToSetPoints *)

(** The [click(e)] handler, with [p = [e.latlng.lat, e.latlng.lng]].
    [!props.start] tests for [null]: an array is always truthy. *)
Definition click (p : LatLng) (s : State) : State :=
  match start s with
  | None => setStart (Some p) s
  | Some _ =>
      match end_ s with
      | None => setEnd (Some p) s
      | Some _ => setEnd None (setStart (Some p) s)
      end
  end.

(** A run of map clicks, oldest first. *)
Definition clicks (ps : list LatLng) (s : State) : State :=
  fold_left (fun acc p => click p acc) ps s.

(** The selection states the specification names, and the one pair of
    cells that is none of them. *)
Inductive SelectionState :=
| NoneSet
| StartSet (s : LatLng)
| BothSet (s e : LatLng)
| EndOnly (e : LatLng).

Definition selection (s : State) : SelectionState :=
  match start s, end_ s with
  | None, None => NoneSet
  | Some a, None => StartSet a
  | Some a, Some b => BothSet a b
  | None, Some b => EndOnly b
  end.

(** The markers drawn by [ClickToSetPoints]. *)
Definition markers (s : State) : list LatLng :=
  match start s with Some a => [a] | None => [] end ++
  match end_ s with Some b => [b] | None => [] end.

(* ================================================================== *)
(** ** Effects and the handler monad *)

(** Body of the POST request: [{start: {lat, lon}, end: {lat, lon}}]. *)
Record CompareRequest := {
  req_start : LatLng;
  req_end : LatLng
}.

(** What a rejected [await] throws into the [catch] clause. *)
Inductive Error :=
| NetworkError
| BodyReadError
| ParseError.

(** A value handed to [console.error] or [console.log] after the label. *)
Inductive Logged :=
| LNumber (n : nat)
| LText (t : string)
| LError (e : Error)
| LRoutes (rs : list Route).

Inductive Effect :=
| Alert (msg : string)
| ConsoleError (label : string) (args : list Logged)
| ConsoleLog (label : string) (args : list Logged)
| HttpPost (url : string) (body : CompareRequest).

Inductive Completion (A : Type) :=
| Normal (a : A)
| Thrown (e : Error).
Arguments Normal {A} a.
Arguments Thrown {A} e.

(** A handler: reads and writes the component state, appends to the
    effect trace, and completes normally or by throwing. *)
Definition M (A : Type) : Type := State -> Completion A * State * list Effect.

Definition ret {A} (a : A) : M A := fun s => (Normal a, s, []).

Definition bind {A B} (m : M A) (k : A -> M B) : M B :=
  fun s =>
    match m s with
    | (Normal a, s1, t1) =>
        match k a s1 with
        | (c, s2, t2) => (c, s2, (t1 ++ t2)%list)
        end
    | (Thrown e, s1, t1) => (Thrown e, s1, t1)
    end.

Definition throw {A} (e : Error) : M A := fun s => (Thrown e, s, []).

Definition try_catch {A} (body : M A) (handler : Error -> M A) : M A :=
  fun s =>
    match body s with
    | (Normal a, s1, t1) => (Normal a, s1, t1)
    | (Thrown e, s1, t1) =>
        match handler e s1 with
        | (c, s2, t2) => (c, s2, (t1 ++ t2)%list)
        end
    end.

Definition get : M State := fun s => (Normal s, s, []).
Definition modify (f : State -> State) : M unit := fun s => (Normal tt, f s, []).
Definition emit (e : Effect) : M unit := fun s => (Normal tt, s, [e]).

Notation "x <- m ;; k" := (bind m (fun x => k))
  (at level 61, m at next level, right associativity).
Notation "m ;; k" := (bind m (fun _ => k))
  (at level 61, right associativity).

Definition final_state {A} (r : Completion A * State * list Effect) : State :=
  snd (fst r).
Definition trace {A} (r : Completion A * State * list Effect) : list Effect :=
  snd r.
Definition completion {A} (r : Completion A * State * list Effect) : Completion A :=
  fst (fst r).

(* ================================================================== *)
(** ** The comparison service as the component sees it *)

(** The [routes] member of the parsed body. *)
Inductive RoutesField :=
| RoutesAbsent
| RoutesNotArray
| RoutesArray (rs : list Route).

(** The value [res.json()] resolves to. *)
Inductive Json :=
| JNull
| JPrimitive
| JObject (routes_field : RoutesField).

(** A [Response]: its status, and what reading the body as text or as
    JSON gives ([None]: the promise rejects). *)
Record Response := {
  status : nat;
  text : option string;
  json : option Json
}.

(** [res.ok]: the status is in the range 200-299. *)
Definition ok (res : Response) : bool :=
  (200 <=? status res)%nat && (status res <=? 299)%nat.

(** What [fetch] settles to. *)
Inductive FetchOutcome :=
| Rejected
| Resolved (res : Response).

Definition await_fetch (net : FetchOutcome) : M Response :=
  match net with
  | Rejected => throw NetworkError
  | Resolved res => ret res
  end.

Definition await_text (res : Response) : M string :=
  match text res with
  | Some t => ret t
  | None => throw BodyReadError
  end.

Definition await_json (res : Response) : M Json :=
  match json res with
  | Some d => ret d
  | None => throw ParseError
  end.

(** [Array.isArray(data?.routes) ? data.routes : []] *)
Definition routesFromBackend (data : Json) : list Route :=
  match data with
  | JObject (RoutesArray rs) => rs
  | _ => []
  end.

(** [routesFromBackend[0]?.id ?? null] *)
Definition first_id (rs : list Route) : option string :=
  match rs with
  | r :: _ => Some (id r)
  | [] => None
  end.

Definition string_of_nat (n : nat) : string :=
  NilEmpty.string_of_uint (Nat.to_uint n).

Definition compare_url : string := "http://127.0.0.1:8000/routes/compare".

(* ================================================================== *)
(** ** fetchRoutes *)

(** The [catch (err)] clause. *)
Definition fetchRoutes_catch (err : Error) : M unit :=
  emit (ConsoleError "Network/parse error:" [LError err]) ;;
  emit (Alert "Could not fetch routes (backend down or network error).") ;;
  modify (setRoutes []) ;;
  modify (setSelectedRouteId None).

(** The [try] block from the point where [fetch] settles.  The setters
    act on the state current at that moment. *)
Definition fetchRoutes_settled (net : FetchOutcome) : M unit :=
  try_catch
    (res <- await_fetch net ;;
     if negb (ok res) then
       errText <- await_text res ;;
       emit (ConsoleError "Backend error:" [LNumber (status res); LText errText]) ;;
       emit (Alert ("Backend error " ++ string_of_nat (status res)
                      ++ ". Check console.")) ;;
       modify (setRoutes []) ;;
       modify (setSelectedRouteId None)
     else
       data <- await_json res ;;
       let rs := routesFromBackend data in
       emit (ConsoleLog "routes from backend:" [LRoutes rs]) ;;
       modify (setRoutes rs) ;;
       modify (setSelectedRouteId (first_id rs)))
    fetchRoutes_catch.

(** [fetchRoutes], run against a service that answers [net]. *)
Definition fetchRoutes (net : FetchOutcome) : M unit :=
  s <- get ;;
  match start s, end_ s with
  | Some a, Some b =>
      emit (HttpPost compare_url {| req_start := a; req_end := b |}) ;;
      fetchRoutes_settled net
  | _, _ =>
      emit (Alert "Click once to set START, then click again to set END.")
  end.

(* ================================================================== *)
(** ** Route buttons *)

(** [routes.map(r => <button onClick={() => setSelectedRouteId(r.id)}>)]:
    one handler per route, in route order. *)
Definition routeButtons (s : State) : list (State -> State) :=
  map (fun r => setSelectedRouteId (Some (id r))) (routes s).

(** A click on the [k]-th button of the list; there is nothing to click
    past the end of the list. *)
Definition clickRouteButton (k : nat) (s : State) : State :=
  match nth_error (routeButtons s) k with
  | Some onClick => onClick s
  | None => s
  end.

(** [isSelected] of a list entry and of a polyline. *)
Definition isSelected (r : Route) (s : State) : bool :=
  match selectedRouteId s with
  | Some x => String.eqb (id r) x
  | None => false
  end.

(* ================================================================== *)
(** ** Detail panels *)

(** JavaScript truthiness of a [string | null]: [null] and the empty
    string are falsy. *)
Definition truthy (x : option string) : bool :=
  match x with
  | None => false
  | Some EmptyString => false
  | Some (String _ _) => true
  end.

(** [routes.find(r => r.id === selectedRouteId)] *)
Definition find_selected (s : State) : option Route :=
  match selectedRouteId s with
  | Some x => find (fun r => String.eqb (id r) x) (routes s)
  | None => None
  end.

(** The [data] handed to [<LineChart>] by
    [selectedRouteId && routes.find(...)?.elevation_profile && (...)];
    [None] when the panel is not rendered.  An array is truthy even when
    empty. *)
Definition elevationChart (s : State) : option (list ElevationSample) :=
  if truthy (selectedRouteId s) then
    match find_selected s with
    | Some r => elevation_profile r
    | None => None
    end
  else None.

(** The integer [n] for which [n - x] is closest to zero, the larger one
    on a tie ([x] non-negative). *)
Definition round_half_up (x : number) : Z := Qfloor (x + (1 # 2)).

Definition string_of_Z (n : Z) : string :=
  NilZero.string_of_uint (N.to_uint (Z.to_N n)).

(** [x.toFixed(0)], below the magnitude where it switches to exponent
    notation: sign first, then the rounded absolute value. *)
Definition toFixed0 (x : number) : string :=
  if Qlt_le_dec x 0
  then "-" ++ string_of_Z (round_half_up (- x))
  else string_of_Z (round_half_up x).

(** What the "Surface Details" card shows. *)
Record SurfaceDetails := {
  kerbs : number;
  surfaces_line : option Tally;
  smoothness_line : option Tally;
  unknown_surface : string
}.

(** [Object.keys(t).length > 0 && (... Object.entries(t) ...)] *)
Definition nonempty_entries (t : Tally) : option Tally :=
  if (0 <? List.length t)%nat then Some t else None.

Definition surfaceDetails (s : State) : option SurfaceDetails :=
  if truthy (selectedRouteId s) then
    match find_selected s with
    | Some r =>
        match osm_summary r with
        | Some osm =>
            Some {| kerbs := kerb_nodes_count osm;
                    surfaces_line := nonempty_entries (surfaces osm);
                    smoothness_line := nonempty_entries (smoothness osm);
                    unknown_surface :=
                      toFixed0 (unknown_surface_ratio osm * 100) |}
        | None => None
        end
    | None => None
    end
  else None.

(** The derived view of the specification, read off the two cards: the
    chart plots [dist_m] against [elev_m] for each datum in order. *)
Record DerivedView := {
  elevationSeries : option (list (number * number));
  surfaceBreakdown : option Tally;
  smoothnessBreakdown : option Tally;
  unknownSurfacePercent : option string
}.

Definition flatten_opt {A} (x : option (option A)) : option A :=
  match x with
  | Some y => y
  | None => None
  end.

Definition project (s : State) : DerivedView :=
  {| elevationSeries :=
       option_map (map (fun d => (dist_m d, elev_m d))) (elevationChart s);
     surfaceBreakdown := flatten_opt (option_map surfaces_line (surfaceDetails s));
     smoothnessBreakdown := flatten_opt (option_map smoothness_line (surfaceDetails s));
     unknownSurfacePercent := option_map unknown_surface (surfaceDetails s) |}.

Definition all_none (v : DerivedView) : Prop :=
  elevationSeries v = None /\ surfaceBreakdown v = None /\
  smoothnessBreakdown v = None /\ unknownSurfacePercent v = None.

(** [dist_m] never decreases along a series. *)
Fixpoint nondecreasing (xs : list number) : Prop :=
  match xs with
  | [] => True
  | x :: rest =>
      match rest with
      | [] => True
      | y :: _ => x <= y /\ nondecreasing rest
      end
  end.

(* ================================================================== *)
(** ** FitToRoutes *)

(** The arguments of a [map.fitBounds(points, {padding})] call. *)
Record FitBoundsCall := {
  fit_points : list LatLng;
  fit_padding : number * number
}.

(** The [useEffect] body: the call it makes, if any. *)
Definition FitToRoutes (rs : list Route) : option FitBoundsCall :=
  if (List.length rs =? 0)%nat then None
  else
    let allPoints := flat_map geometry rs in
    if negb (List.length allPoints =? 0)%nat
    then Some {| fit_points := allPoints; fit_padding := (30, 30) |}
    else None.

(** Modelled from the spec: the region a fit yields, an axis-aligned
    rectangle. *)
Record Region := {
  minLat : number;
  maxLat : number;
  minLon : number;
  maxLon : number
}.

(** Modelled from the spec: the rectangle computation behind
    [map.fitBounds], which lives in the map library and not in this
    repository.  One pass over the points, keeping the running minimum and
    maximum of each coordinate. *)
Definition extend (r : Region) (p : LatLng) : Region :=
  {| minLat := Qmin (minLat r) (fst p);
     maxLat := Qmax (maxLat r) (fst p);
     minLon := Qmin (minLon r) (snd p);
     maxLon := Qmax (maxLon r) (snd p) |}.

(** Modelled from the spec: the rectangle around a non-empty run of
    points, started at the first one. *)
Definition bounding (p : LatLng) (ps : list LatLng) : Region :=
  fold_left extend ps
    {| minLat := fst p; maxLat := fst p; minLon := snd p; maxLon := snd p |}.

(** Modelled from the spec: the rectangle grown by the padding on every
    side. *)
Definition expand (padding : number) (r : Region) : Region :=
  {| minLat := minLat r - padding;
     maxLat := maxLat r + padding;
     minLon := minLon r - padding;
     maxLon := maxLon r + padding |}.

(** Modelled from the spec: [fit(routes, padding)], the region framed by
    the call [FitToRoutes] makes, with the padding as an argument. *)
Definition fit (rs : list Route) (padding : number) : option Region :=
  match FitToRoutes rs with
  | Some call =>
      match fit_points call with
      | p :: ps => Some (expand padding (bounding p ps))
      | [] => None
      end
  | None => None
  end.

(* ================================================================== *)
(** ** The session as an event system *)

Inductive Event :=
| MapClick (p : LatLng)
| FindRoutes (net : FetchOutcome)
| LateSettle (net : FetchOutcome)
| RouteButton (k : nat).

(** One event: the state it leaves and the effects it causes.
    [FindRoutes] is a press of the button answered at once; [LateSettle]
    is an earlier request settling after other events went by. *)
Definition handle (e : Event) (s : State) : State * list Effect :=
  match e with
  | MapClick p => (click p s, [])
  | FindRoutes net => (final_state (fetchRoutes net s), trace (fetchRoutes net s))
  | LateSettle net =>
      (final_state (fetchRoutes_settled net s), trace (fetchRoutes_settled net s))
  | RouteButton k => (clickRouteButton k s, [])
  end.

Definition run (es : list Event) (s : State) : State :=
  fold_left (fun acc e => fst (handle e acc)) es s.

(* ================================================================== *)
(** ** Predicates of the properties, and sample data *)

(** The end point is set only when the start point is. *)
Definition start_before_end (s : State) : Prop :=
  end_ s <> None -> start s <> None.

(** The claim of a cycle of period three, as the specification words it:
    whatever multiple of three clicks went before, the next three give
    [StartSet], [BothSet], [StartSet]. *)
Definition three_click_cycle : Prop :=
  forall (ps : list LatLng) (k : nat) (a b c : LatLng),
    List.length ps = (3 * k)%nat ->
    selection (clicks (ps ++ [a]) initial) = StartSet a /\
    selection (clicks (ps ++ [a; b]) initial) = BothSet a b /\
    selection (clicks (ps ++ [a; b; c]) initial) = StartSet c.

Definition belfast : LatLng := (546 # 10, - (59 # 10)).
Definition queens : LatLng := (5458 # 100, - (593 # 100)).
Definition docks : LatLng := (5461 # 100, - (591 # 100)).
Definition zoo : LatLng := (5466 # 100, - (595 # 100)).

(** The request fails: [fetch] rejects, the status is outside 200-299, or
    the body of a success response does not parse. *)
Definition failed (net : FetchOutcome) : Prop :=
  match net with
  | Rejected => True
  | Resolved res => ok res = false \/ json res = None
  end.

(** The request succeeds with nothing to show: the parsed body has an
    empty [routes] array, or none at all. *)
Definition empty_success (net : FetchOutcome) : Prop :=
  exists res data,
    net = Resolved res /\ ok res = true /\ json res = Some data /\
    routesFromBackend data = [].

(** The user is told: some [alert] is raised. *)
Definition notifies (t : list Effect) : Prop := exists msg, In (Alert msg) t.

Definition requests (t : list Effect) : Prop :=
  exists url body, In (HttpPost url body) t.

Definition sample_profile : list ElevationSample :=
  [ {| i := 0; lat := 546 # 10; lon := - (59 # 10); elev_m := 12; dist_m := 0 |};
    {| i := 1; lat := 5461 # 100; lon := - (591 # 100); elev_m := 15; dist_m := 40 |};
    {| i := 2; lat := 5462 # 100; lon := - (592 # 100); elev_m := 14; dist_m := 40 |};
    {| i := 3; lat := 5458 # 100; lon := - (593 # 100); elev_m := 9; dist_m := 95 |} ].

Definition sample_osm : OsmSummary :=
  {| steps_count := 0;
     surfaces := [("asphalt", 7); ("paving_stones", 2)];
     smoothness := [];
     highway_types := [("footway", 9)];
     kerb_nodes_count := 3;
     unknown_surface_ratio := 1 # 8;
     sample_points_used := 16 |}.

Definition route_named (name : string) (g : list LatLng) : Route :=
  {| id := name;
     geometry := g;
     distance_m := 1200;
     duration_s := 900;
     elevation_metrics := None;
     elevation_profile := Some sample_profile;
     osm_summary := Some sample_osm;
     accessibility_score := 80;
     flags := [] |}.

Definition r1 : Route := route_named "route_1" [belfast; docks; queens].
Definition r2 : Route := route_named "route_2" [belfast; zoo; queens].

(** Both points set, an older result still on screen with its second
    route selected. *)
Definition both_set : State :=
  {| routes := [r2; r1]; start := Some belfast; end_ := Some queens;
     selectedRouteId := Some "route_1" |}.

Definition answer (code : nat) (body : option Json) : FetchOutcome :=
  Resolved {| status := code; text := Some "detail"; json := body |}.

(** The claim of a guarded [select], on the only operation of the
    component that takes an id: the setter the route buttons call. *)
Definition select_absent_is_noop : Prop :=
  forall (s : State) (x : string),
    (forall r, In r (routes s) -> id r <> x) ->
    selectedRouteId (setSelectedRouteId (Some x) s) = selectedRouteId s.

(** [m] is the least (greatest) element of [xs]. *)
Definition is_min (m : number) (xs : list number) : Prop :=
  (forall x, In x xs -> m <= x) /\ exists x, In x xs /\ x == m.

Definition is_max (m : number) (xs : list number) : Prop :=
  (forall x, In x xs -> x <= m) /\ exists x, In x xs /\ x == m.

(** [r] is the least rectangle around [ps]. *)
Definition least_rectangle (r : Region) (ps : list LatLng) : Prop :=
  is_min (minLat r) (map fst ps) /\ is_max (maxLat r) (map fst ps) /\
  is_min (minLon r) (map snd ps) /\ is_max (maxLon r) (map snd ps).

(** A route whose id is the empty string. *)
Definition blank : Route := route_named "" [belfast; queens].

Definition blank_fetched : State :=
  final_state
    (fetchRoutes (answer 200 (Some (JObject (RoutesArray [blank])))) both_set).

(** The selected id, when there is one, is the id of a current route. *)
Definition selection_valid (s : State) : Prop :=
  match selectedRouteId s with
  | None => True
  | Some x => exists r, In r (routes s) /\ id r = x
  end.

Definition session_ok (s : State) : Prop :=
  start_before_end s /\ selection_valid s.

(* ================================================================== *)
(** ** The route list and the polylines *)

(** A style object: property names with their values, in the order the
    properties were first written. *)
Definition Style : Type := list (string * string).

Fixpoint set_prop (k v : string) (o : Style) : Style :=
  match o with
  | [] => [(k, v)]
  | (k', v') :: rest =>
      if String.eqb k' k then (k, v) :: rest else (k', v') :: set_prop k v rest
  end.

Fixpoint get_prop (k : string) (o : Style) : option string :=
  match o with
  | [] => None
  | (k', v') :: rest => if String.eqb k' k then Some v' else get_prop k rest
  end.

(** [{...o, ...over}]: later properties win, new ones are appended. *)
Definition spread (o over : Style) : Style :=
  fold_left (fun acc kv => set_prop (fst kv) (snd kv) acc) over o.

(** [styles.routeButton], [styles.routeButtonSelected] and
    [styles.routeButtonRecommended]. *)
Definition routeButton : Style :=
  [ ("backgroundColor", "white");
    ("border", "2px solid #e9ecef");
    ("borderRadius", "8px");
    ("padding", "12px");
    ("fontSize", "14px");
    ("cursor", "pointer");
    ("width", "100%");
    ("textAlign", "left");
    ("transition", "all 0.2s");
    ("marginBottom", "8px") ].

Definition routeButtonSelected : Style :=
  [ ("borderColor", "#667eea"); ("backgroundColor", "#f0f3ff") ].

Definition routeButtonRecommended : Style :=
  [ ("borderColor", "#28a745"); ("backgroundColor", "#f0fff4") ].

(** The [style] of a route button:
    [{...routeButton, ...(isSelected ? routeButtonSelected : {}),
      ...(isRecommended && !isSelected ? routeButtonRecommended : {})}]. *)
Definition buttonStyle (isSel isRecommended : bool) : Style :=
  spread
    (spread routeButton (if isSel then routeButtonSelected else []))
    (if isRecommended && negb isSel then routeButtonRecommended else []).

(** [(r.osm_summary?.steps_count ?? 0) > 0] *)
Definition hasSteps (r : Route) : bool :=
  let n := match osm_summary r with
           | Some osm => steps_count osm
           | None => 0
           end in
  negb (Qle_bool n 0).

(** [r.elevation_metrics?.ascent_m || 0]: zero is falsy. *)
Definition shown_ascent (r : Route) : number :=
  match elevation_metrics r with
  | Some m => if Qeq_bool (ascent_m m) 0 then 0 else ascent_m m
  | None => 0
  end.

(** What one entry of the route list shows.  The line with distance,
    duration and score is number formatting only and is left out. *)
Record RouteRow := {
  row_key : string;
  row_style : Style;
  row_check : bool;
  row_star : bool;
  row_steps_badge : bool;
  row_recommended_badge : bool;
  row_ascent : number;
  row_steps : option number;
  row_flags : option (list string)
}.

(** The body of [routes.map((r, index) => ...)] in the list card. *)
Definition routeRow (s : State) (r : Route) (index : nat) : RouteRow :=
  let isRecommended := (index =? 0)%nat in
  {| row_key := id r;
     row_style := buttonStyle (isSelected r s) isRecommended;
     row_check := isSelected r s;
     row_star := isRecommended;
     row_steps_badge := hasSteps r;
     row_recommended_badge := isRecommended;
     row_ascent := shown_ascent r;
     row_steps := option_map steps_count (osm_summary r);
     row_flags := if (0 <? List.length (flags r))%nat then Some (flags r) else None |}.

(** [Array.prototype.map] with the index argument. *)
Fixpoint map_index {A B : Type} (f : A -> nat -> B) (k : nat) (l : list A) : list B :=
  match l with
  | [] => []
  | a :: rest => f a k :: map_index f (S k) rest
  end.

Definition routeRows (s : State) : list RouteRow :=
  map_index (routeRow s) 0%nat (routes s).

(** [routes.length === 0 && <div>No routes yet. ...</div>] *)
Definition placeholder (s : State) : bool := (List.length (routes s) =? 0)%nat.

(** [pathOptions] of a polyline. *)
Record PathOptions := {
  color : string;
  weight : number;
  opacity : number
}.

Definition pathOptions (isSel : bool) : PathOptions :=
  {| color := if isSel then "#667eea" else "#dc3545";
     weight := if isSel then 6 else 3;
     opacity := if isSel then 1 else 6 # 10 |}.

(** The [<Polyline>] elements of the map, one per route. *)
Definition polylines (s : State) : list (string * list LatLng * PathOptions) :=
  map (fun r => (id r, geometry r, pathOptions (isSelected r s))) (routes s).

(* ================================================================== *)
(** ** Readings of a trace and of an event run *)

(** The bodies of the requests in a trace. *)
Definition posts (t : list Effect) : list CompareRequest :=
  flat_map (fun e => match e with HttpPost _ b => [b] | _ => [] end) t.

(** The messages of the alerts in a trace. *)
Definition alerts (t : list Effect) : list string :=
  flat_map (fun e => match e with Alert m => [m] | _ => [] end) t.

(** The points of the map clicks in a run of events. *)
Definition click_points (es : list Event) : list LatLng :=
  flat_map (fun e => match e with MapClick p => [p] | _ => [] end) es.

Definition both_points (s : State) : bool :=
  match start s, end_ s with
  | Some _, Some _ => true
  | _, _ => false
  end.

(** [failed], as a test. *)
Definition failedb (net : FetchOutcome) : bool :=
  match net with
  | Rejected => true
  | Resolved res =>
      negb (ok res) || match json res with Some _ => false | None => true end
  end.

(** The routes a settled request puts on screen. *)
Definition shown (net : FetchOutcome) : list Route :=
  match net with
  | Rejected => []
  | Resolved res =>
      if ok res then
        match json res with
        | Some data => routesFromBackend data
        | None => []
        end
      else []
  end.

(** The list entries and polylines drawn as selected. *)
Definition selected_routes (s : State) : list Route :=
  filter (fun r => isSelected r s) (routes s).

(* ================================================================== *)
(** * Properties *)

(** ** The two-point selector *)

Section Clicks.

(** The transition table of the handler, on the named states. *)
Lemma selection_click (p : LatLng) (s : State) :
  selection (click p s) =
  match selection s with
  | NoneSet => StartSet p
  | StartSet a => BothSet a p
  | BothSet _ _ => StartSet p
  | EndOnly e => BothSet p e
  end.
Proof.
  destruct s as [rs [a|] [b|] sel]; reflexivity.
Qed.

Lemma clicks_snoc (ps : list LatLng) (p : LatLng) (s : State) :
  clicks (ps ++ [p]) s = click p (clicks ps s).
Proof. unfold clicks. rewrite fold_left_app. reflexivity. Qed.

(** A click touches neither the routes nor the selected route. *)
Lemma click_frame (p : LatLng) (s : State) :
  routes (click p s) = routes s /\
  selectedRouteId (click p s) = selectedRouteId s.
Proof.
  destruct s as [rs [a|] [b|] sel]; split; reflexivity.
Qed.

(** After at least one click the selector only alternates: an odd
    number of clicks leaves [StartSet] of the last point, an even
    number leaves [BothSet] of the last two. *)
Lemma selection_after_clicks (ps : list LatLng) :
  forall p d : LatLng,
    selection (clicks (ps ++ [p]) initial) =
    if Nat.even (List.length ps) then StartSet p
    else BothSet (last ps d) p.
Proof.
  induction ps as [|x ps IH] using rev_ind; intros p d.
  - reflexivity.
  - rewrite clicks_snoc, selection_click, (IH x d).
    rewrite length_app, Nat.add_1_r, Nat.even_succ, <- Nat.negb_even.
    destruct (Nat.even (List.length ps)); simpl.
    + rewrite last_last. reflexivity.
    + reflexivity.
Qed.

End Clicks.

Lemma initial_start_before_end : start_before_end initial.
Proof. unfold start_before_end. simpl. congruence. Qed.

Lemma click_start_before_end (s : State) (p : LatLng) :
  start_before_end s -> start_before_end (click p s).
Proof.
  destruct s as [rs [a|] [b|] sel]; unfold start_before_end, click;
    simpl; intros; congruence.
Qed.

(** C1, as worded, fails at the fourth click: the selector is then in
    [BothSet] of the third and fourth points, not in [StartSet] of the
    fourth. *)
Lemma three_click_cycle_fails :
  selection (clicks [belfast; queens; docks; zoo] initial) = BothSet docks zoo /\
  selection (clicks [belfast; queens; docks; zoo] initial) <> StartSet zoo /\
  ~ three_click_cycle.
Proof.
  split; [reflexivity|].
  split; [discriminate|].
  intro H.
  destruct (H [belfast; queens; docks] 1%nat zoo zoo zoo eq_refl) as [H1 _].
  discriminate H1.
Qed.

(** C1 (amended): from the initial state one click gives [StartSet] of
    that point, a second gives [BothSet] of the first and second, a third
    gives [StartSet] of the third with the end point cleared; from then on
    the selector alternates with period two, never returning to the empty
    state: after an odd number of clicks it is [StartSet] of the last
    point, after an even number [BothSet] of the last two. *)
Theorem click_sequence_selection :
  forall (a b c : LatLng),
    selection (clicks [a] initial) = StartSet a /\
    selection (clicks [a; b] initial) = BothSet a b /\
    selection (clicks [a; b; c] initial) = StartSet c /\
    end_ (clicks [a; b; c] initial) = None /\
    forall (ps : list LatLng) (p d : LatLng),
      selection (clicks (ps ++ [p]) initial) =
      if Nat.even (List.length ps) then StartSet p
      else BothSet (last ps d) p.
Proof.
  intros a b c.
  repeat split; try reflexivity.
  intros ps p d. apply selection_after_clicks.
Qed.

(** C10: the initial state has no end point without a start point, every
    click keeps it so, and hence no run of clicks from the initial state
    reaches a state with the end point set and the start point unset. *)
Theorem clicks_start_before_end :
  forall (ps : list LatLng),
    start_before_end initial /\
    (forall (s : State) (p : LatLng),
        start_before_end s -> start_before_end (click p s)) /\
    start_before_end (clicks ps initial) /\
    (forall e, selection (clicks ps initial) <> EndOnly e).
Proof.
  assert (Hall : forall ps, start_before_end (clicks ps initial)).
  { induction ps as [|x ps IH] using rev_ind.
    - exact initial_start_before_end.
    - rewrite clicks_snoc. apply click_start_before_end, IH. }
  intros ps. repeat split; auto.
  { exact initial_start_before_end. }
  { apply click_start_before_end. }
  intros e He. specialize (Hall ps). unfold start_before_end, selection in *.
  destruct (start (clicks ps initial)), (end_ (clicks ps initial));
    try discriminate.
  apply Hall; congruence.
Qed.

(** C10 at a run of two clicks, where the end point is set. *)
Lemma clicks_start_before_end_witness :
  end_ (clicks [belfast; queens] initial) <> None /\
  start (clicks [belfast; queens] initial) <> None.
Proof.
  split.
  - simpl. discriminate.
  - destruct (clicks_start_before_end [belfast; queens]) as [_ [_ [H _]]].
    apply H. simpl. discriminate.
Defined.

(* ================================================================== *)
(** ** fetchRoutes *)

Ltac run_handler :=
  unfold fetchRoutes, fetchRoutes_settled, fetchRoutes_catch, try_catch, bind,
    await_fetch, await_text, await_json, emit, modify, get, ret, throw,
    final_state, trace, completion in *;
  simpl in *.

Section FetchRoutes.

Variable net : FetchOutcome.
Variable s : State.

(** With both points set the handler posts them and continues with the
    settled part; the state is not touched in between. *)
Lemma fetchRoutes_both_set (a b : LatLng) :
  start s = Some a -> end_ s = Some b ->
  final_state (fetchRoutes net s) = final_state (fetchRoutes_settled net s) /\
  completion (fetchRoutes net s) = completion (fetchRoutes_settled net s) /\
  trace (fetchRoutes net s) =
    HttpPost compare_url {| req_start := a; req_end := b |}
      :: trace (fetchRoutes_settled net s).
Proof.
  intros Ha Hb.
  unfold fetchRoutes, bind, get, emit. rewrite Ha, Hb.
  destruct (fetchRoutes_settled net s) as [[c s'] t].
  repeat split.
Qed.

(** No path of the settled part throws past the [catch]. *)
Lemma settled_completes : completion (fetchRoutes_settled net s) = Normal tt.
Proof.
  destruct net as [|res]; run_handler; [reflexivity|].
  destruct (ok res); simpl.
  - destruct (json res); reflexivity.
  - destruct (text res); reflexivity.
Qed.

(** Whatever the answer, the settled part leaves both points alone. *)
Lemma settled_points :
  start (final_state (fetchRoutes_settled net s)) = start s /\
  end_ (final_state (fetchRoutes_settled net s)) = end_ s.
Proof.
  destruct net as [|res]; run_handler; [split; reflexivity|].
  destruct (ok res); simpl.
  - destruct (json res); split; reflexivity.
  - destruct (text res); split; reflexivity.
Qed.

(** A failure handled by the settled part, from any state. *)
Lemma settled_failed :
  failed net ->
  routes (final_state (fetchRoutes_settled net s)) = [] /\
  selectedRouteId (final_state (fetchRoutes_settled net s)) = None /\
  notifies (trace (fetchRoutes_settled net s)).
Proof.
  unfold notifies.
  destruct net as [|res]; simpl; intros H; run_handler.
  - repeat split. eexists. right. left. reflexivity.
  - destruct (ok res) eqn:Hok; simpl.
    + destruct H as [H|H]; [discriminate|]. rewrite H.
      repeat split. eexists. right. left. reflexivity.
    + destruct (text res); simpl; repeat split;
        eexists; right; left; reflexivity.
Qed.

(** A success applied by the settled part, from any state. *)
Lemma settled_success (res : Response) (data : Json) :
  net = Resolved res -> ok res = true -> json res = Some data ->
  fetchRoutes_settled net s =
    (Normal tt,
     setSelectedRouteId (first_id (routesFromBackend data))
       (setRoutes (routesFromBackend data) s),
     [ConsoleLog "routes from backend:" [LRoutes (routesFromBackend data)]]).
Proof.
  intros -> Hok Hjson. run_handler. rewrite Hok, Hjson. reflexivity.
Qed.

End FetchRoutes.

(** ** C2 *)

(** C2: a success response with the non-empty route list [r :: rs],
    applied from any state with both points set (and, for a request that
    settles late, from any state at all), leaves [routes] equal to
    [r :: rs] in that order and [selectedRouteId] equal to the id of [r],
    whatever was selected before. *)
Theorem success_selects_first
    (s : State) (a b : LatLng) (res : Response) (r : Route) (rs : list Route) :
  start s = Some a -> end_ s = Some b ->
  ok res = true -> json res = Some (JObject (RoutesArray (r :: rs))) ->
  routes (final_state (fetchRoutes (Resolved res) s)) = r :: rs /\
  selectedRouteId (final_state (fetchRoutes (Resolved res) s)) = Some (id r) /\
  forall s' : State,
    routes (final_state (fetchRoutes_settled (Resolved res) s')) = r :: rs /\
    selectedRouteId (final_state (fetchRoutes_settled (Resolved res) s'))
      = Some (id r).
Proof.
  intros Ha Hb Hok Hjson.
  assert (H : forall s' : State,
    routes (final_state (fetchRoutes_settled (Resolved res) s')) = r :: rs /\
    selectedRouteId (final_state (fetchRoutes_settled (Resolved res) s'))
      = Some (id r)).
  { intros s'.
    rewrite (settled_success (Resolved res) s' res _ eq_refl Hok Hjson).
    split; reflexivity. }
  destruct (fetchRoutes_both_set (Resolved res) s a b Ha Hb) as [-> _].
  destruct (H s) as [H1 H2]. auto.
Qed.

Lemma success_selects_first_witness :
  routes (final_state
    (fetchRoutes (answer 200 (Some (JObject (RoutesArray [r1; r2])))) both_set))
    = [r1; r2] /\
  selectedRouteId (final_state
    (fetchRoutes (answer 200 (Some (JObject (RoutesArray [r1; r2])))) both_set))
    = Some "route_1".
Proof.
  destruct (success_selects_first both_set belfast queens
              {| status := 200; text := Some "detail";
                 json := Some (JObject (RoutesArray [r1; r2])) |}
              r1 [r2] eq_refl eq_refl eq_refl eq_refl) as [H1 [H2 _]].
  split; [exact H1 | exact H2].
Defined.

(** ** C3 *)

(** C3: when the request fails -- [fetch] rejects, the status is not a
    success status, or the body does not parse -- the handler ends with
    [routes] empty and [selectedRouteId] [null], and it raises an [alert];
    the same holds when the failure is handled from a later state. *)
Theorem failure_resets_and_alerts
    (net : FetchOutcome) (s : State) (a b : LatLng) :
  failed net -> start s = Some a -> end_ s = Some b ->
  routes (final_state (fetchRoutes net s)) = [] /\
  selectedRouteId (final_state (fetchRoutes net s)) = None /\
  notifies (trace (fetchRoutes net s)) /\
  forall s' : State,
    routes (final_state (fetchRoutes_settled net s')) = [] /\
    selectedRouteId (final_state (fetchRoutes_settled net s')) = None /\
    notifies (trace (fetchRoutes_settled net s')).
Proof.
  intros Hf Ha Hb.
  destruct (fetchRoutes_both_set net s a b Ha Hb) as [Hs [_ Ht]].
  destruct (settled_failed net s Hf) as [H1 [H2 [msg H3]]].
  rewrite Hs, Ht. repeat split; auto.
  - exists msg. right. exact H3.
  - apply (settled_failed net s' Hf).
  - apply (settled_failed net s' Hf).
  - apply (settled_failed net s' Hf).
Qed.

Lemma failure_resets_and_alerts_witness :
  failed (answer 503 None) /\
  routes (final_state (fetchRoutes (answer 503 None) both_set)) = [] /\
  selectedRouteId (final_state (fetchRoutes (answer 503 None) both_set)) = None /\
  In (Alert "Backend error 503. Check console.")
     (trace (fetchRoutes (answer 503 None) both_set)).
Proof.
  assert (Hf : failed (answer 503 None)) by (left; reflexivity).
  destruct (failure_resets_and_alerts (answer 503 None) both_set belfast queens
              Hf eq_refl eq_refl) as [H1 [H2 _]].
  split; [exact Hf|]. split; [exact H1|]. split; [exact H2|].
  vm_compute. right. right. left. reflexivity.
Defined.

(** ** C9 *)

(** C9: handling a failed request leaves the start and end points as they
    were; of the four state cells only [routes] and [selectedRouteId] are
    written.  This holds on the non-success path and on the [catch] path,
    also when the failure is handled after the points have moved on. *)
Theorem failure_keeps_points
    (net : FetchOutcome) (s : State) (a b : LatLng) :
  failed net -> start s = Some a -> end_ s = Some b ->
  start (final_state (fetchRoutes net s)) = Some a /\
  end_ (final_state (fetchRoutes net s)) = Some b /\
  forall s' : State,
    start (final_state (fetchRoutes_settled net s')) = start s' /\
    end_ (final_state (fetchRoutes_settled net s')) = end_ s'.
Proof.
  intros _ Ha Hb.
  destruct (fetchRoutes_both_set net s a b Ha Hb) as [-> _].
  destruct (settled_points net s) as [-> ->].
  repeat split; auto; apply settled_points.
Qed.

Lemma failure_keeps_points_witness :
  failed Rejected /\
  start (final_state (fetchRoutes Rejected both_set)) = Some belfast /\
  end_ (final_state (fetchRoutes Rejected both_set)) = Some queens.
Proof.
  destruct (failure_keeps_points Rejected both_set belfast queens
              I eq_refl eq_refl) as [H1 [H2 _]].
  split; [exact I|]. split; [exact H1 | exact H2].
Defined.

(** ** C5 *)

(** C5, as worded, fails on its last part: for a success response with an
    empty [routes] array the state is reset, but nothing is raised -- the
    trace holds the request and a console log only, and the handler
    completes normally. *)
Lemma empty_success_not_notified :
  empty_success (answer 200 (Some (JObject (RoutesArray [])))) /\
  trace (fetchRoutes (answer 200 (Some (JObject (RoutesArray [])))) both_set)
    = [HttpPost compare_url {| req_start := belfast; req_end := queens |};
       ConsoleLog "routes from backend:" [LRoutes []]] /\
  completion (fetchRoutes (answer 200 (Some (JObject (RoutesArray [])))) both_set)
    = Normal tt /\
  ~ notifies
      (trace (fetchRoutes (answer 200 (Some (JObject (RoutesArray [])))) both_set)).
Proof.
  split.
  { eexists. eexists. repeat split; reflexivity. }
  split; [reflexivity|]. split; [reflexivity|].
  intros [msg H]. vm_compute in H.
  destruct H as [H|[H|[]]]; discriminate H.
Qed.

(** C5 (amended): a success response whose candidate list is empty -- an
    empty [routes] array, or a [routes] member that is absent or not an
    array, or a body that is not an object -- leaves [routes] empty and
    [selectedRouteId] [null]; it is handled as a result, not as a failure:
    the handler completes normally, logs the empty list to the console and
    raises no alert. *)
Theorem empty_success_resets_silently
    (net : FetchOutcome) (s : State) (a b : LatLng) :
  empty_success net -> start s = Some a -> end_ s = Some b ->
  routes (final_state (fetchRoutes net s)) = [] /\
  selectedRouteId (final_state (fetchRoutes net s)) = None /\
  completion (fetchRoutes net s) = Normal tt /\
  trace (fetchRoutes net s) =
    [HttpPost compare_url {| req_start := a; req_end := b |};
     ConsoleLog "routes from backend:" [LRoutes []]] /\
  ~ notifies (trace (fetchRoutes net s)).
Proof.
  intros (res & data & Hnet & Hok & Hjson & Hrs) Ha Hb.
  destruct (fetchRoutes_both_set net s a b Ha Hb) as [Hs [Hc Ht]].
  rewrite Hs, Hc, Ht.
  rewrite (settled_success net s res data Hnet Hok Hjson), Hrs.
  unfold final_state, completion, trace; simpl.
  repeat split.
  intros [msg [H|[H|[]]]]; discriminate H.
Qed.

(** The three shapes of body that count as an empty list. *)
Lemma empty_success_shapes (code : nat) (t : option string) (d : Json) :
  (200 <=? code)%nat && (code <=? 299)%nat = true ->
  d = JNull \/ d = JPrimitive \/ d = JObject RoutesAbsent \/
  d = JObject RoutesNotArray \/ d = JObject (RoutesArray []) ->
  empty_success (Resolved {| status := code; text := t; json := Some d |}).
Proof.
  intros Hok Hd. eexists. exists d. repeat split; [exact Hok|].
  destruct Hd as [->|[->|[->|[->| ->]]]]; reflexivity.
Qed.

Lemma empty_success_resets_silently_witness :
  empty_success (answer 200 (Some (JObject RoutesNotArray))) /\
  routes (final_state
    (fetchRoutes (answer 200 (Some (JObject RoutesNotArray))) both_set)) = [] /\
  selectedRouteId (final_state
    (fetchRoutes (answer 200 (Some (JObject RoutesNotArray))) both_set)) = None.
Proof.
  assert (He : empty_success (answer 200 (Some (JObject RoutesNotArray)))).
  { eexists. eexists. repeat split; reflexivity. }
  destruct (empty_success_resets_silently _ both_set belfast queens
              He eq_refl eq_refl) as [H1 [H2 _]].
  split; [exact He|]. split; [exact H1 | exact H2].
Defined.

(** ** C6 *)

(** C6: when the start point or the end point is not set, [fetchRoutes]
    issues no request and changes no state cell; all it does is raise the
    alert that asks for two clicks. *)
Theorem missing_point_no_request (net : FetchOutcome) (s : State) :
  start s = None \/ end_ s = None ->
  final_state (fetchRoutes net s) = s /\
  ~ requests (trace (fetchRoutes net s)) /\
  trace (fetchRoutes net s) =
    [Alert "Click once to set START, then click again to set END."].
Proof.
  intros H.
  assert (Ht : fetchRoutes net s =
    (Normal tt, s,
     [Alert "Click once to set START, then click again to set END."])).
  { unfold fetchRoutes, bind, get, emit.
    destruct (start s) as [a|], (end_ s) as [b|];
      try reflexivity.
    destruct H; discriminate. }
  rewrite Ht. unfold final_state, trace; simpl.
  repeat split.
  intros (url & body & [Hin|[]]). discriminate Hin.
Qed.

Lemma missing_point_no_request_witness :
  end_ (click belfast initial) = None /\
  final_state (fetchRoutes Rejected (click belfast initial))
    = click belfast initial /\
  ~ requests (trace (fetchRoutes Rejected (click belfast initial))).
Proof.
  destruct (missing_point_no_request Rejected (click belfast initial)
              (or_intror eq_refl)) as [H1 [H2 _]].
  split; [reflexivity|]. split; [exact H1 | exact H2].
Defined.

(** ** C4 *)

(** C4, as worded, fails: the setter stores whatever id it is given; with
    no routes at all, an id is stored that belongs to no route. *)
Lemma setter_stores_absent_id :
  (forall r, In r (routes initial) -> id r <> "route_9") /\
  selectedRouteId initial = None /\
  selectedRouteId (setSelectedRouteId (Some "route_9") initial) = Some "route_9" /\
  ~ select_absent_is_noop.
Proof.
  split; [intros r []|]. split; [reflexivity|]. split; [reflexivity|].
  intro H. specialize (H initial "route_9" (fun r (F : In r []) => match F with end)).
  discriminate H.
Qed.

(** C4 (amended): the component has no membership check; what keeps the
    selection inside the route sequence is that the only callers of the
    setter with an id are the route buttons, one per current route, each
    passing its own route's id.  So a click on the [k]-th button selects
    the id of the [k]-th route and touches nothing else, there is nothing
    to click for an id that no route has, and every button handler leaves
    an id that is present in the sequence. *)
Theorem route_button_selects_present (s : State) (k : nat) :
  routes (clickRouteButton k s) = routes s /\
  start (clickRouteButton k s) = start s /\
  end_ (clickRouteButton k s) = end_ s /\
  match nth_error (routes s) k with
  | Some r => selectedRouteId (clickRouteButton k s) = Some (id r) /\ In r (routes s)
  | None => clickRouteButton k s = s
  end /\
  List.length (routeButtons s) = List.length (routes s) /\
  Forall (fun onClick : State -> State =>
            exists r, In r (routes s) /\ selectedRouteId (onClick s) = Some (id r))
         (routeButtons s).
Proof.
  unfold clickRouteButton, routeButtons.
  rewrite nth_error_map.
  destruct (nth_error (routes s) k) as [r|] eqn:Hk; simpl.
  - repeat split; auto.
    + eapply nth_error_In; eauto.
    + apply length_map.
    + apply Forall_forall. intros h Hh. apply in_map_iff in Hh.
      destruct Hh as (r' & <- & Hr'). exists r'. split; auto.
  - repeat split; auto.
    + apply length_map.
    + apply Forall_forall. intros h Hh. apply in_map_iff in Hh.
      destruct Hh as (r' & <- & Hr'). exists r'. split; auto.
Qed.

(* ================================================================== *)
(** ** FitToRoutes and the fitted region *)

Local Open Scope Q_scope.

Section RunningExtremes.

Lemma fold_min_below (xs : list number) :
  forall m, fold_left Qmin xs m <= m /\
            forall x, In x xs -> fold_left Qmin xs m <= x.
Proof.
  induction xs as [|y xs IH]; intros m; simpl.
  - split; [apply Qle_refl | intros x []].
  - destruct (IH (Qmin m y)) as [H1 H2]. split.
    + eapply Qle_trans; [exact H1 | apply Q.le_min_l].
    + intros x [<-|Hx]; [|auto].
      eapply Qle_trans; [exact H1 | apply Q.le_min_r].
Qed.

Lemma fold_min_attained (xs : list number) :
  forall m, fold_left Qmin xs m == m \/
            exists x, In x xs /\ x == fold_left Qmin xs m.
Proof.
  induction xs as [|y xs IH]; intros m; simpl.
  - left. reflexivity.
  - destruct (IH (Qmin m y)) as [H|(x & Hx & Hm)].
    + destruct (Q.min_dec m y) as [E|E].
      * left. rewrite H. exact E.
      * right. exists y. split; [now left|]. rewrite H. symmetry. exact E.
    + right. exists x. split; [now right | exact Hm].
Qed.

Lemma fold_max_above (xs : list number) :
  forall m, m <= fold_left Qmax xs m /\
            forall x, In x xs -> x <= fold_left Qmax xs m.
Proof.
  induction xs as [|y xs IH]; intros m; simpl.
  - split; [apply Qle_refl | intros x []].
  - destruct (IH (Qmax m y)) as [H1 H2]. split.
    + eapply Qle_trans; [apply Q.le_max_l | exact H1].
    + intros x [<-|Hx]; [|auto].
      eapply Qle_trans; [apply Q.le_max_r | exact H1].
Qed.

Lemma fold_max_attained (xs : list number) :
  forall m, fold_left Qmax xs m == m \/
            exists x, In x xs /\ x == fold_left Qmax xs m.
Proof.
  induction xs as [|y xs IH]; intros m; simpl.
  - left. reflexivity.
  - destruct (IH (Qmax m y)) as [H|(x & Hx & Hm)].
    + destruct (Q.max_dec m y) as [E|E].
      * left. rewrite H. exact E.
      * right. exists y. split; [now left|]. rewrite H. symmetry. exact E.
    + right. exists x. split; [now right | exact Hm].
Qed.

Lemma fold_min_is_min (x : number) (xs : list number) :
  is_min (fold_left Qmin xs x) (x :: xs).
Proof.
  destruct (fold_min_below xs x) as [H1 H2]. split.
  - intros y [<-|Hy]; auto.
  - destruct (fold_min_attained xs x) as [H|(y & Hy & E)].
    + exists x. split; [now left | symmetry; exact H].
    + exists y. split; [now right | exact E].
Qed.

Lemma fold_max_is_max (x : number) (xs : list number) :
  is_max (fold_left Qmax xs x) (x :: xs).
Proof.
  destruct (fold_max_above xs x) as [H1 H2]. split.
  - intros y [<-|Hy]; auto.
  - destruct (fold_max_attained xs x) as [H|(y & Hy & E)].
    + exists x. split; [now left | symmetry; exact H].
    + exists y. split; [now right | exact E].
Qed.

(** The pass over the points keeps four independent running extremes. *)
Lemma fold_extend (ps : list LatLng) :
  forall r,
    minLat (fold_left extend ps r) = fold_left Qmin (map fst ps) (minLat r) /\
    maxLat (fold_left extend ps r) = fold_left Qmax (map fst ps) (maxLat r) /\
    minLon (fold_left extend ps r) = fold_left Qmin (map snd ps) (minLon r) /\
    maxLon (fold_left extend ps r) = fold_left Qmax (map snd ps) (maxLon r).
Proof.
  induction ps as [|p ps IH]; intros r; simpl.
  - repeat split.
  - destruct (IH (extend r p)) as (-> & -> & -> & ->). repeat split.
Qed.

End RunningExtremes.

Lemma bounding_least (p : LatLng) (ps : list LatLng) :
  least_rectangle (bounding p ps) (p :: ps).
Proof.
  unfold least_rectangle, bounding.
  destruct (fold_extend ps
    {| minLat := fst p; maxLat := fst p; minLon := snd p; maxLon := snd p |})
    as (-> & -> & -> & ->).
  simpl. repeat split;
    try apply (fold_min_is_min (fst p) (map fst ps));
    try apply (fold_max_is_max (fst p) (map fst ps));
    try apply (fold_min_is_min (snd p) (map snd ps));
    try apply (fold_max_is_max (snd p) (map snd ps)).
Qed.

(** What [FitToRoutes] does, by the flattened point list. *)
Lemma FitToRoutes_cases (rs : list Route) :
  FitToRoutes rs =
  match flat_map geometry rs with
  | [] => None
  | q :: qs => Some {| fit_points := q :: qs; fit_padding := (30, 30) |}
  end.
Proof.
  unfold FitToRoutes.
  destruct rs as [|r rs]; [reflexivity|].
  cbn [List.length Nat.eqb].
  destruct (flat_map geometry (r :: rs)); reflexivity.
Qed.

(** C7: with no routes nothing is fitted.  When the routes have points,
    [fitBounds] is called with all of them, in order, and with the fixed
    padding; the fitted region is then the least axis-aligned rectangle
    around every point of every geometry, grown by the padding on each
    side.  For the single route from (0,0) to (1,1) and padding [p] the
    region is [0-p, 1+p] on both axes. *)
Theorem fit_padded_least_rectangle (rs : list Route) (p : number) :
  fit [] p = None /\
  FitToRoutes [] = None /\
  match flat_map geometry rs with
  | [] => fit rs p = None /\ FitToRoutes rs = None
  | q :: qs =>
      FitToRoutes rs = Some {| fit_points := q :: qs; fit_padding := (30, 30) |} /\
      exists box : Region,
        least_rectangle box (flat_map geometry rs) /\
        fit rs p = Some (expand p box)
  end /\
  forall r0 : Route,
    geometry r0 = [(0, 0); (1, 1)] ->
    fit [r0] p =
      Some {| minLat := 0 - p; maxLat := 1 + p;
              minLon := 0 - p; maxLon := 1 + p |}.
Proof.
  split; [reflexivity|]. split; [reflexivity|]. split.
  - unfold fit. rewrite FitToRoutes_cases.
    destruct (flat_map geometry rs) as [|q qs] eqn:E.
    + split; reflexivity.
    + split; [reflexivity|].
      exists (bounding q qs). split; [apply bounding_least | reflexivity].
  - intros r0 Hg. unfold fit. rewrite FitToRoutes_cases.
    simpl. rewrite Hg. reflexivity.
Qed.

Lemma fit_padded_least_rectangle_witness :
  geometry (route_named "diagonal" [(0, 0); (1, 1)]) = [(0, 0); (1, 1)] /\
  fit [route_named "diagonal" [(0, 0); (1, 1)]] 30 =
    Some {| minLat := 0 - 30; maxLat := 1 + 30;
            minLon := 0 - 30; maxLon := 1 + 30 |}.
Proof.
  split; [reflexivity|].
  destruct (fit_padded_least_rectangle [] 30) as [_ [_ [_ H]]].
  apply (H (route_named "diagonal" [(0, 0); (1, 1)])). reflexivity.
Defined.

(* ================================================================== *)
(** ** The detail panels *)

Section Panels.

Variable s : State.

(** Nothing selected, or a selected id that no route has: both cards
    stay away. *)
Lemma project_unselected :
  selectedRouteId s = None \/ find_selected s = None ->
  all_none (project s).
Proof.
  unfold all_none, project, elevationChart, surfaceDetails.
  intros [H|H].
  - rewrite H. simpl. repeat split.
  - rewrite H. destruct (truthy (selectedRouteId s)); simpl; repeat split.
Qed.

(** A selected route with a non-empty id: the chart gets the route's
    profile as it is, the card the rounded share of unknown surface. *)
Lemma project_selected (x : string) (r : Route) :
  selectedRouteId s = Some x -> x <> EmptyString -> find_selected s = Some r ->
  elevationChart s = elevation_profile r /\
  elevationSeries (project s) =
    option_map (map (fun d => (dist_m d, elev_m d))) (elevation_profile r) /\
  unknownSurfacePercent (project s) =
    option_map (fun osm => toFixed0 (unknown_surface_ratio osm * 100))
               (osm_summary r).
Proof.
  intros Hsel Hx Hfind.
  unfold project, elevationChart, surfaceDetails.
  rewrite Hsel, Hfind. destruct x as [|c x]; [congruence|]. simpl.
  repeat split. destruct (osm_summary r); reflexivity.
Qed.

End Panels.

(** The plotted series has one pair per sample, in the order of the
    samples, so it is as long as the profile and its distances do not
    decrease when the profile's do not. *)
Lemma series_shape (prof : list ElevationSample) :
  List.length (map (fun d => (dist_m d, elev_m d)) prof) = List.length prof /\
  map fst (map (fun d => (dist_m d, elev_m d)) prof) = map dist_m prof /\
  (nondecreasing (map dist_m prof) ->
   nondecreasing (map fst (map (fun d => (dist_m d, elev_m d)) prof))).
Proof.
  split; [apply length_map|].
  assert (E : map fst (map (fun d => (dist_m d, elev_m d)) prof) = map dist_m prof).
  { rewrite map_map. apply map_ext. reflexivity. }
  split; [exact E|]. rewrite E. auto.
Qed.



(** The first route of a fetched list, selected and shown. *)
Example project_route_1 :
  project (final_state
    (fetchRoutes (answer 200 (Some (JObject (RoutesArray [r1; r2])))) both_set))
  = {| elevationSeries := Some [(0, 12); (40, 15); (40, 14); (95, 9)];
       surfaceBreakdown := Some [("asphalt"%string, 7); ("paving_stones"%string, 2)];
       smoothnessBreakdown := None;
       unknownSurfacePercent := Some "13"%string |}.
Proof. vm_compute. reflexivity. Qed.

(** C8 at a route with the empty id: the fetch selects it, the list and
    the map mark it as selected, it carries a profile of four samples and
    a surface summary -- and the view derived from it is empty in every
    field, because the cards are guarded by the truthiness of the selected
    id. *)
Theorem blank_id_selected_shows_nothing :
  routes blank_fetched = [blank] /\
  selectedRouteId blank_fetched = Some ""%string /\
  find_selected blank_fetched = Some blank /\
  isSelected blank blank_fetched = true /\
  option_map (@List.length _) (elevation_profile blank) = Some 4%nat /\
  osm_summary blank = Some sample_osm /\
  all_none (project blank_fetched).
Proof.
  repeat split.
Qed.

(* ================================================================== *)
(** ** Invariants of the whole session *)

Lemma replaced_valid (rs : list Route) (s : State) :
  selection_valid (setSelectedRouteId (first_id rs) (setRoutes rs s)).
Proof.
  unfold selection_valid. destruct rs as [|r rs]; simpl; [exact I|].
  exists r. split; [now left | reflexivity].
Qed.

(** Every way a request can settle writes some list and its first id. *)
Lemma settled_final (net : FetchOutcome) (s : State) :
  exists rs,
    final_state (fetchRoutes_settled net s) =
    setSelectedRouteId (first_id rs) (setRoutes rs s).
Proof.
  destruct net as [|res]; run_handler; [exists []; reflexivity|].
  destruct (ok res); simpl.
  - destruct (json res) as [d|]; simpl;
      [exists (routesFromBackend d) | exists []]; reflexivity.
  - destruct (text res); simpl; exists []; reflexivity.
Qed.

Lemma fetchRoutes_final (net : FetchOutcome) (s : State) :
  final_state (fetchRoutes net s) = s \/
  final_state (fetchRoutes net s) = final_state (fetchRoutes_settled net s).
Proof.
  destruct (start s) as [a|] eqn:Ha; [destruct (end_ s) as [b|] eqn:Hb|].
  - right. apply (fetchRoutes_both_set net s a b Ha Hb).
  - left. unfold fetchRoutes, bind, get, emit, final_state. rewrite Ha, Hb. reflexivity.
  - left. unfold fetchRoutes, bind, get, emit, final_state. rewrite Ha. reflexivity.
Qed.

Lemma settled_session_ok (net : FetchOutcome) (s : State) :
  session_ok s -> session_ok (final_state (fetchRoutes_settled net s)).
Proof.
  intros [Hp _]. split.
  - unfold start_before_end in *.
    destruct (settled_points net s) as [-> ->]. exact Hp.
  - destruct (settled_final net s) as [rs ->]. apply replaced_valid.
Qed.

Lemma handle_session_ok (e : Event) (s : State) :
  session_ok s -> session_ok (fst (handle e s)).
Proof.
  intros H. destruct e as [p|net|net|k]; simpl.
  - destruct H as [Hp Hv]. split; [apply click_start_before_end, Hp|].
    unfold selection_valid in *.
    destruct (click_frame p s) as [-> ->]. exact Hv.
  - destruct (fetchRoutes_final net s) as [-> | ->];
      [exact H | apply settled_session_ok, H].
  - apply settled_session_ok, H.
  - destruct H as [Hp Hv]. unfold clickRouteButton, routeButtons.
    rewrite nth_error_map.
    destruct (nth_error (routes s) k) as [r|] eqn:Hk; simpl; [|split; assumption].
    split; [exact Hp|].
    unfold selection_valid; simpl. exists r.
    split; [eapply nth_error_In; eauto | reflexivity].
Qed.

(** Whatever the user and the service do, in whatever order, the end
    point is never set without the start point and the selected id never
    dangles. *)
Lemma run_session_ok (es : list Event) : session_ok (run es initial).
Proof.
  induction es as [|e es IH] using rev_ind.
  - split; [exact initial_start_before_end | exact I].
  - unfold run in *. rewrite fold_left_app. simpl.
    apply handle_session_ok, IH.
Qed.

(* ================================================================== *)
(** ** Further properties of fetchRoutes *)

Lemma selection_cells (s : State) :
  match selection s with
  | NoneSet => start s = None /\ end_ s = None
  | StartSet a => start s = Some a /\ end_ s = None
  | BothSet a b => start s = Some a /\ end_ s = Some b
  | EndOnly b => start s = None /\ end_ s = Some b
  end.
Proof.
  unfold selection. destruct (start s), (end_ s); split; reflexivity.
Qed.

(** The settled part in closed form: it writes [shown net] and its first
    id, and nothing else. *)
Lemma settled_final_shown (net : FetchOutcome) (s : State) :
  final_state (fetchRoutes_settled net s) =
  setSelectedRouteId (first_id (shown net)) (setRoutes (shown net) s).
Proof.
  destruct net as [|res]; run_handler; [reflexivity|].
  destruct (ok res); simpl.
  - destruct (json res); reflexivity.
  - destruct (text res); reflexivity.
Qed.

Lemma settled_posts (net : FetchOutcome) (s : State) :
  posts (trace (fetchRoutes_settled net s)) = [].
Proof.
  destruct net as [|res]; run_handler; [reflexivity|].
  destruct (ok res); simpl.
  - destruct (json res); reflexivity.
  - destruct (text res); reflexivity.
Qed.

Lemma settled_alerts (net : FetchOutcome) (s : State) :
  List.length (alerts (trace (fetchRoutes_settled net s))) =
  if failedb net then 1%nat else 0%nat.
Proof.
  destruct net as [|res]; run_handler; [reflexivity|].
  destruct (ok res); simpl.
  - destruct (json res); reflexivity.
  - destruct (text res); reflexivity.
Qed.

Lemma fetchRoutes_unfold (net : FetchOutcome) (s : State) :
  fetchRoutes net s =
  match start s, end_ s with
  | Some a, Some b =>
      (completion (fetchRoutes_settled net s),
       final_state (fetchRoutes_settled net s),
       HttpPost compare_url {| req_start := a; req_end := b |}
         :: trace (fetchRoutes_settled net s))
  | _, _ =>
      (Normal tt, s,
       [Alert "Click once to set START, then click again to set END."])
  end.
Proof.
  unfold fetchRoutes, bind, get, emit, completion, final_state, trace.
  destruct (start s) as [a|]; [destruct (end_ s) as [b|]|]; try reflexivity.
  destruct (fetchRoutes_settled net s) as [[c s'] t]. reflexivity.
Qed.

Lemma fetchRoutes_posts (net : FetchOutcome) (s : State) :
  posts (trace (fetchRoutes net s)) =
  match start s, end_ s with
  | Some a, Some b => [{| req_start := a; req_end := b |}]
  | _, _ => []
  end.
Proof.
  rewrite fetchRoutes_unfold.
  destruct (start s) as [a|]; [destruct (end_ s) as [b|]|]; try reflexivity.
  unfold trace at 1. cbn [snd posts flat_map app].
  fold (posts (trace (fetchRoutes_settled net s))).
  rewrite settled_posts. reflexivity.
Qed.

(** X1: each press of "Find Routes" sends at most one request: exactly
    one, carrying the start and end points of the moment, when both are
    set, and none otherwise -- whatever the service answers. *)
Theorem one_request_per_press (net : FetchOutcome) (s : State) :
  posts (trace (fetchRoutes net s)) =
  match start s, end_ s with
  | Some a, Some b => [{| req_start := a; req_end := b |}]
  | _, _ => []
  end.
Proof. apply fetchRoutes_posts. Qed.

(** X2: [fetchRoutes] never completes by throwing: a rejected [fetch], a
    body that cannot be read and a body that does not parse are all caught
    inside the handler. *)
Theorem fetchRoutes_never_throws (net : FetchOutcome) (s : State) :
  completion (fetchRoutes net s) = Normal tt /\
  completion (fetchRoutes_settled net s) = Normal tt.
Proof.
  split; [|apply settled_completes].
  rewrite fetchRoutes_unfold.
  destruct (start s) as [a|]; [destruct (end_ s) as [b|]|]; try reflexivity.
  unfold completion at 1. simpl. apply settled_completes.
Qed.

(** X3: a press raises exactly one alert when a point is missing or the
    request fails, and none when the request succeeds; the user is never
    alerted twice for one press. *)
Theorem one_alert_per_failure (net : FetchOutcome) (s : State) :
  List.length (alerts (trace (fetchRoutes net s))) =
  if both_points s then (if failedb net then 1%nat else 0%nat) else 1%nat.
Proof.
  rewrite fetchRoutes_unfold. unfold both_points.
  destruct (start s) as [a|]; [destruct (end_ s) as [b|]|]; try reflexivity.
  unfold trace at 1. cbn [snd alerts flat_map app].
  fold (alerts (trace (fetchRoutes_settled net s))).
  apply settled_alerts.
Qed.

(** X4: pressing "Find Routes" again with the same answer changes
    nothing more: the handler is idempotent on the state. *)
Theorem fetchRoutes_idempotent (net : FetchOutcome) (s : State) :
  final_state (fetchRoutes net (final_state (fetchRoutes net s))) =
  final_state (fetchRoutes net s).
Proof.
  assert (Hs : forall s0,
    final_state (fetchRoutes net s0) =
    match start s0, end_ s0 with
    | Some _, Some _ =>
        setSelectedRouteId (first_id (shown net)) (setRoutes (shown net) s0)
    | _, _ => s0
    end).
  { intros s0. rewrite fetchRoutes_unfold.
    destruct (start s0) as [a|]; [destruct (end_ s0) as [b|]|]; try reflexivity.
    unfold final_state at 1. simpl. apply settled_final_shown. }
  rewrite (Hs s).
  destruct s as [rs [a|] [b|] sel]; simpl; rewrite Hs; reflexivity.
Qed.

(** X5: what a settling request leaves in [routes] and [selectedRouteId]
    depends on its answer alone, not on anything that happened before: of
    two requests in flight, the one that settles last decides what is on
    screen, also when it was sent first. *)
Theorem last_settlement_wins (net : FetchOutcome) (es es' : list Event) (s s' : State) :
  routes (run (es ++ [LateSettle net]) s) =
    routes (run (es' ++ [LateSettle net]) s') /\
  selectedRouteId (run (es ++ [LateSettle net]) s) =
    selectedRouteId (run (es' ++ [LateSettle net]) s').
Proof.
  unfold run. rewrite !fold_left_app. simpl.
  rewrite !settled_final_shown. split; reflexivity.
Qed.

(* ================================================================== *)
(** ** Further properties of the session *)

Lemma handle_points (e : Event) (s : State) :
  match e with
  | MapClick _ => True
  | _ => start (fst (handle e s)) = start s /\ end_ (fst (handle e s)) = end_ s
  end.
Proof.
  destruct e as [p|net|net|k]; simpl; [exact I| | |].
  - rewrite fetchRoutes_unfold.
    destruct (start s) as [a|] eqn:Ha; [destruct (end_ s) as [b|] eqn:Hb|];
      unfold final_state; simpl; auto.
    fold (final_state (fetchRoutes_settled net s)).
    destruct (settled_points net s) as [-> ->]. auto.
  - apply settled_points.
  - unfold clickRouteButton, routeButtons. rewrite nth_error_map.
    destruct (nth_error (routes s) k); simpl; auto.
Qed.

Lemma click_same_points (p : LatLng) (s s' : State) :
  start s = start s' -> end_ s = end_ s' ->
  start (click p s) = start (click p s') /\ end_ (click p s) = end_ (click p s').
Proof.
  destruct s as [rs [a|] [b|] sel], s' as [rs' [a'|] [b'|] sel']; simpl;
    intros H1 H2; try discriminate; inversion H1; inversion H2; subst;
    split; reflexivity.
Qed.

Lemma run_points (es : list Event) :
  forall s s' : State,
    start s = start s' -> end_ s = end_ s' ->
    start (run es s) = start (clicks (click_points es) s') /\
    end_ (run es s) = end_ (clicks (click_points es) s').
Proof.
  induction es as [|e es IH]; intros s s' H1 H2.
  - split; assumption.
  - unfold run, clicks in *. simpl fold_left.
    destruct e as [p|net|net|k].
    + simpl click_points. simpl fold_left.
      destruct (click_same_points p s s' H1 H2) as [Ha Hb].
      apply (IH _ _ Ha Hb).
    + destruct (handle_points (FindRoutes net) s) as [Ha Hb].
      apply IH; [rewrite Ha | rewrite Hb]; assumption.
    + destruct (handle_points (LateSettle net) s) as [Ha Hb].
      apply IH; [rewrite Ha | rewrite Hb]; assumption.
    + destruct (handle_points (RouteButton k) s) as [Ha Hb].
      apply IH; [rewrite Ha | rewrite Hb]; assumption.
Qed.

Lemma clicks_frame (ps : list LatLng) (s : State) :
  routes (clicks ps s) = routes s /\
  selectedRouteId (clicks ps s) = selectedRouteId s.
Proof.
  induction ps as [|p ps IH] using rev_ind; [split; reflexivity|].
  rewrite clicks_snoc. destruct (click_frame p (clicks ps s)) as [-> ->].
  exact IH.
Qed.

(** X6: in every session -- map clicks, presses of "Find Routes" with
    any answer, requests settling late, clicks on route buttons, in any
    order -- the selected id is either [null] or the id of a route that is
    on screen. *)
Theorem selected_id_never_dangles (es : list Event) :
  match selectedRouteId (run es initial) with
  | None => True
  | Some x => exists r, In r (routes (run es initial)) /\ id r = x
  end.
Proof. apply (run_session_ok es). Qed.

(** X7: in every such session the start and end points are exactly what
    the map clicks alone would have produced: fetching, settling and
    selecting never move a point, and so the selector is never left with an
    end point and no start point. *)
Theorem points_follow_clicks_only (es : list Event) :
  start (run es initial) = start (clicks (click_points es) initial) /\
  end_ (run es initial) = end_ (clicks (click_points es) initial) /\
  selection (run es initial) = selection (clicks (click_points es) initial) /\
  forall e, selection (run es initial) <> EndOnly e.
Proof.
  destruct (run_points es initial initial eq_refl eq_refl) as [Ha Hb].
  split; [exact Ha|]. split; [exact Hb|].
  split; [unfold selection; rewrite Ha, Hb; reflexivity|].
  intros e He.
  destruct (run_session_ok es) as [Hp _].
  unfold start_before_end, selection in *.
  destruct (start (run es initial)), (end_ (run es initial)); try discriminate.
  apply Hp; congruence.
Qed.

(** X8: map clicks leave the result of the last comparison alone: after
    any number of clicks the routes on screen and the selected route are
    those from before, although they were computed for other points. *)
Theorem clicks_keep_routes (ps : list LatLng) (s : State) :
  routes (clicks ps s) = routes s /\
  selectedRouteId (clicks ps s) = selectedRouteId s /\
  FitToRoutes (routes (clicks ps s)) = FitToRoutes (routes s) /\
  project (clicks ps s) = project s.
Proof.
  destruct (clicks_frame ps s) as [Hr Hs].
  split; [exact Hr|]. split; [exact Hs|]. split; [rewrite Hr; reflexivity|].
  unfold project, elevationChart, surfaceDetails, find_selected.
  rewrite Hr, Hs. reflexivity.
Qed.

(** X9: clicks and "Find Routes" together.  After a run of clicks from
    the initial state, a press sends a request exactly when the number of
    clicks is even and not zero, and the request then carries the last two
    clicked points as start and end; after an odd number of clicks (one
    point of a new pair chosen) it sends nothing and alerts. *)
Theorem press_after_clicks (net : FetchOutcome) (ps : list LatLng) (p d : LatLng) :
  posts (trace (fetchRoutes net initial)) = [] /\
  posts (trace (fetchRoutes net (clicks (ps ++ [p]) initial))) =
    (if Nat.even (List.length ps) then []
     else [{| req_start := last ps d; req_end := p |}]) /\
  alerts (trace (fetchRoutes net (clicks (ps ++ [p]) initial))) =
    (if Nat.even (List.length ps)
     then ["Click once to set START, then click again to set END."]
     else alerts (trace (fetchRoutes_settled net (clicks (ps ++ [p]) initial)))).
Proof.
  split; [reflexivity|].
  pose proof (selection_cells (clicks (ps ++ [p]) initial)) as Hc.
  rewrite (selection_after_clicks ps p d) in Hc.
  rewrite fetchRoutes_posts, fetchRoutes_unfold.
  destruct (Nat.even (List.length ps)); destruct Hc as [-> ->]; split; reflexivity.
Qed.

(* ================================================================== *)
(** ** Selecting and looking up *)

Section UniqueIds.



Lemma filter_absent_id (l : list Route) (x : string) :
  ~ In x (map id l) -> filter (fun r => String.eqb (id r) x) l = [].
Proof.
  induction l as [|y l IH]; intros Hx; [reflexivity|].
  simpl. destruct (String.eqb (id y) x) eqn:E.
  - exfalso. apply Hx. left. apply String.eqb_eq, E.
  - apply IH. intros H. apply Hx. right. exact H.
Qed.

Lemma filter_unique_id (l : list Route) (r : Route) :
  NoDup (map id l) -> In r l ->
  filter (fun x => String.eqb (id x) (id r)) l = [r].
Proof.
  induction l as [|x l IH]; intros Hnd Hin; [destruct Hin|].
  simpl in Hnd. inversion Hnd as [|? ? Hx Hl]; subst.
  simpl. destruct (String.eqb (id x) (id r)) eqn:E.
  - apply String.eqb_eq in E.
    destruct Hin as [->|Hin].
    + f_equal. apply filter_absent_id. exact Hx.
    + exfalso. apply Hx. rewrite E. apply in_map, Hin.
  - destruct Hin as [->|Hin]; [rewrite String.eqb_refl in E; discriminate|].
    apply IH; assumption.
Qed.

End UniqueIds.

Lemma selected_routes_by_id (s : State) (x : string) :
  selectedRouteId s = Some x ->
  selected_routes s = filter (fun r => String.eqb (id r) x) (routes s).
Proof.
  intros H. unfold selected_routes. apply filter_ext.
  intros r. unfold isSelected. rewrite H. reflexivity.
Qed.

Lemma clickRouteButton_at (s : State) (k : nat) (r : Route) :
  nth_error (routes s) k = Some r ->
  clickRouteButton k s = setSelectedRouteId (Some (id r)) s.
Proof.
  intros H. unfold clickRouteButton, routeButtons.
  rewrite nth_error_map, H. reflexivity.
Qed.



Lemma filter_map_index_length {A B : Type} (f : A -> nat -> B)
    (g : B -> bool) (h : A -> bool) (l : list A) :
  (forall a k, g (f a k) = h a) ->
  forall k, List.length (filter g (map_index f k l)) = List.length (filter h l).
Proof.
  intros Hgh. induction l as [|a l IH]; intros k; [reflexivity|].
  simpl. rewrite Hgh. destruct (h a); simpl; rewrite IH; reflexivity.
Qed.

Lemma filter_map_length {A B : Type} (f : A -> B)
    (g : B -> bool) (h : A -> bool) (l : list A) :
  (forall a, g (f a) = h a) ->
  List.length (filter g (map f l)) = List.length (filter h l).
Proof.
  intros Hgh. induction l as [|a l IH]; [reflexivity|].
  simpl. rewrite Hgh. destruct (h a); simpl; rewrite IH; reflexivity.
Qed.

(** X11: in every session, as long as the ids of the routes on screen
    are pairwise different, the list and the map agree on one highlighted
    route: exactly one list entry carries the check mark and exactly one
    polyline has the selected colour when an id is selected, and none
    otherwise. *)
Theorem one_route_highlighted (es : list Event) :
  NoDup (map id (routes (run es initial))) ->
  List.length (filter row_check (routeRows (run es initial))) =
    match selectedRouteId (run es initial) with Some _ => 1%nat | None => 0%nat end /\
  List.length
    (filter (fun pl => String.eqb (color (snd pl)) "#667eea")
            (polylines (run es initial))) =
    match selectedRouteId (run es initial) with Some _ => 1%nat | None => 0%nat end.
Proof.
  intros Hnd.
  destruct (run_session_ok es) as [_ Hv].
  set (s := run es initial) in *.
  assert (Hsel : List.length (selected_routes s) =
                 match selectedRouteId s with Some _ => 1%nat | None => 0%nat end).
  { unfold selection_valid in Hv.
    destruct (selectedRouteId s) as [x|] eqn:Hx.
    - destruct Hv as (r & Hin & <-).
      rewrite (selected_routes_by_id s (id r) Hx).
      rewrite (filter_unique_id _ r Hnd Hin). reflexivity.
    - unfold selected_routes, isSelected. rewrite Hx.
      rewrite filter_false. reflexivity. }
  split.
  - unfold routeRows.
    rewrite (filter_map_index_length (routeRow s) row_check
               (fun r => isSelected r s)); [exact Hsel | reflexivity].
  - unfold polylines.
    rewrite (filter_map_length _ _ (fun r => isSelected r s)); [exact Hsel|].
    intros r. simpl. destruct (isSelected r s); reflexivity.
Qed.

Lemma one_route_highlighted_witness :
  NoDup (map id (routes (run [MapClick belfast; MapClick queens;
      FindRoutes (answer 200 (Some (JObject (RoutesArray [r1; r2]))));
      RouteButton 1] initial))) /\
  List.length (filter row_check (routeRows (run [MapClick belfast; MapClick queens;
      FindRoutes (answer 200 (Some (JObject (RoutesArray [r1; r2]))));
      RouteButton 1] initial))) = 1%nat.
Proof.
  assert (Hnd : NoDup (map id (routes (run [MapClick belfast; MapClick queens;
      FindRoutes (answer 200 (Some (JObject (RoutesArray [r1; r2]))));
      RouteButton 1] initial)))).
  { simpl. constructor.
    - intros [H|[]]. discriminate H.
    - constructor; [intros [] | constructor]. }
  split; [exact Hnd|].
  exact (proj1 (one_route_highlighted _ Hnd)).
Defined.

(* ================================================================== *)
(** ** The route list *)

Lemma nth_error_map_index {A B : Type} (f : A -> nat -> B) (l : list A) :
  forall k n,
    nth_error (map_index f k l) n =
    option_map (fun a => f a (k + n)%nat) (nth_error l n).
Proof.
  induction l as [|a l IH]; intros k n.
  - destruct n; reflexivity.
  - destruct n as [|n]; simpl.
    + rewrite Nat.add_0_r. reflexivity.
    + rewrite IH. rewrite Nat.add_succ_r. reflexivity.
Qed.

Lemma length_map_index {A B : Type} (f : A -> nat -> B) (l : list A) :
  forall k, List.length (map_index f k l) = List.length l.
Proof.
  induction l as [|a l IH]; intros k; simpl; [reflexivity|].
  rewrite IH. reflexivity.
Qed.

Lemma buttonStyle_colours (isSel isRecommended : bool) :
  get_prop "backgroundColor" (buttonStyle isSel isRecommended) =
    Some (if isSel then "#f0f3ff"
          else if isRecommended then "#f0fff4" else "white")%string /\
  get_prop "borderColor" (buttonStyle isSel isRecommended) =
    (if isSel then Some "#667eea"
     else if isRecommended then Some "#28a745" else None)%string /\
  get_prop "border" (buttonStyle isSel isRecommended) =
    Some "2px solid #e9ecef"%string.
Proof. destruct isSel, isRecommended; repeat split. Qed.

(** X12: the list card has one entry per route, in route order, and the
    placeholder text exactly when there is none.  Only the first entry is
    starred as recommended.  An entry is painted in the selected colours
    when its route is the selected one, in the recommended colours when it
    is the first entry and not selected, and in the plain colours
    otherwise: the merge of the three style objects never mixes them. *)
Theorem route_list_entries (s : State) (k : nat) :
  List.length (routeRows s) = List.length (routes s) /\
  placeholder s = match routeRows s with [] => true | _ :: _ => false end /\
  match nth_error (routes s) k with
  | None => nth_error (routeRows s) k = None
  | Some r =>
      exists row,
        nth_error (routeRows s) k = Some row /\
        row_key row = id r /\
        row_star row = (k =? 0)%nat /\
        row_recommended_badge row = (k =? 0)%nat /\
        row_check row = isSelected r s /\
        get_prop "backgroundColor" (row_style row) =
          Some (if isSelected r s then "#f0f3ff"
                else if (k =? 0)%nat then "#f0fff4" else "white")%string /\
        get_prop "borderColor" (row_style row) =
          (if isSelected r s then Some "#667eea"
           else if (k =? 0)%nat then Some "#28a745" else None)%string
  end.
Proof.
  unfold routeRows, placeholder.
  split; [apply length_map_index|].
  split; [destruct (routes s); reflexivity|].
  rewrite nth_error_map_index.
  destruct (nth_error (routes s) k) as [r|]; [|reflexivity].
  exists (routeRow s r k). simpl.
  destruct (buttonStyle_colours (isSelected r s) (k =? 0)%nat) as [H1 [H2 _]].
  repeat split; assumption.
Qed.

(** X13: a fetched list is shown with its first route both starred and
    selected, so the first entry is painted in the selected colours, not
    the recommended ones; the recommended colours appear on it once the
    user picks a route with another id. *)
Theorem fetched_first_entry
    (s : State) (a b : LatLng) (res : Response) (r : Route) (rs : list Route) :
  start s = Some a -> end_ s = Some b ->
  ok res = true -> json res = Some (JObject (RoutesArray (r :: rs))) ->
  placeholder (final_state (fetchRoutes (Resolved res) s)) = false /\
  (exists row,
     hd_error (routeRows (final_state (fetchRoutes (Resolved res) s))) = Some row /\
     row_key row = id r /\ row_star row = true /\ row_check row = true /\
     get_prop "backgroundColor" (row_style row) = Some "#f0f3ff"%string) /\
  forall (k : nat) (other : Route),
    nth_error (r :: rs) k = Some other -> id other <> id r ->
    exists row,
      hd_error (routeRows
        (clickRouteButton k (final_state (fetchRoutes (Resolved res) s)))) = Some row /\
      row_key row = id r /\ row_star row = true /\ row_check row = false /\
      get_prop "backgroundColor" (row_style row) = Some "#f0fff4"%string.
Proof.
  intros Ha Hb Hok Hjson.
  destruct (fetchRoutes_both_set (Resolved res) s a b Ha Hb) as [-> _].
  rewrite (settled_success (Resolved res) s res _ eq_refl Hok Hjson).
  unfold final_state. cbn [fst snd routesFromBackend first_id].
  set (s' := setSelectedRouteId (Some (id r)) (setRoutes (r :: rs) s)).
  split; [reflexivity|]. split.
  - eexists. split; [reflexivity|]. simpl.
    unfold isSelected. simpl. rewrite String.eqb_refl.
    repeat split.
  - intros k other Hk Hne.
    rewrite (clickRouteButton_at s' k other Hk).
    eexists. split; [reflexivity|]. simpl.
    unfold isSelected. simpl.
    destruct (String.eqb (id r) (id other)) eqn:E.
    + apply String.eqb_eq in E. congruence.
    + repeat split.
Qed.

Lemma fetched_first_entry_witness :
  placeholder (final_state
    (fetchRoutes (answer 200 (Some (JObject (RoutesArray [r1; r2])))) both_set))
    = false /\
  option_map row_key (hd_error (routeRows (final_state
    (fetchRoutes (answer 200 (Some (JObject (RoutesArray [r1; r2])))) both_set))))
    = Some "route_1"%string.
Proof.
  destruct (fetched_first_entry both_set belfast queens
              {| status := 200; text := Some "detail"%string;
                 json := Some (JObject (RoutesArray [r1; r2])) |}
              r1 [r2] eq_refl eq_refl eq_refl eq_refl) as [H1 _].
  split; [exact H1 | reflexivity].
Defined.

(* ================================================================== *)
(** ** Further properties of FitToRoutes and of the surface card *)

(** X14: [FitToRoutes] hands the map every vertex of every route and
    nothing else -- as many points as the geometries hold together, with
    the padding [30, 30] -- and it makes no call exactly when no route has
    a vertex, also when the route list itself is not empty. *)
Theorem fit_points_are_all_vertices (rs : list Route) :
  match FitToRoutes rs with
  | None => Forall (fun r => geometry r = []) rs
  | Some call =>
      fit_padding call = (30, 30) /\
      fit_points call = flat_map geometry rs /\
      (exists r p, In r rs /\ In p (geometry r)) /\
      (forall p, In p (fit_points call) <-> exists r, In r rs /\ In p (geometry r)) /\
      List.length (fit_points call) =
        list_sum (map (fun r => List.length (geometry r)) rs)
  end.
Proof.
  rewrite FitToRoutes_cases.
  destruct (flat_map geometry rs) as [|q qs] eqn:E.
  - apply Forall_forall. intros r Hr.
    destruct (geometry r) as [|p g] eqn:Hg; [reflexivity|].
    assert (Hin : In p (flat_map geometry rs)).
    { apply in_flat_map. exists r. split; [exact Hr | rewrite Hg; now left]. }
    rewrite E in Hin. destruct Hin.
  - cbn [fit_points fit_padding].
    split; [reflexivity|]. split; [reflexivity|]. split.
    + assert (Hin : In q (flat_map geometry rs)) by (rewrite E; now left).
      apply in_flat_map in Hin. destruct Hin as (r & Hr & Hp).
      exists r, q. split; assumption.
    + split.
      * intros p. rewrite <- E. apply in_flat_map.
      * rewrite <- E. apply length_flat_map.
Qed.



(* ================================================================== *)
(** ** What is on screen *)

(** X16: the markers on the map follow the clicks alone.  Whatever else
    happened in the session, after an odd number of map clicks there is one
    marker, at the last clicked point, and after an even number (not zero)
    there are two, at the last two clicked points, start first; a marker
    for the end point alone is never drawn. *)
Theorem markers_follow_clicks (es : list Event) (ps : list LatLng) (p d : LatLng) :
  markers (run es initial) = markers (clicks (click_points es) initial) /\
  markers (clicks [] initial) = [] /\
  markers (clicks (ps ++ [p]) initial) =
    (if Nat.even (List.length ps) then [p] else [last ps d; p]).
Proof.
  split; [|split; [reflexivity|]].
  - destruct (run_points es initial initial eq_refl eq_refl) as [Ha Hb].
    unfold markers. rewrite Ha, Hb. reflexivity.
  - pose proof (selection_cells (clicks (ps ++ [p]) initial)) as Hc.
    rewrite (selection_after_clicks ps p d) in Hc.
    unfold markers.
    destruct (Nat.even (List.length ps)); destruct Hc as [-> ->]; reflexivity.
Qed.

(** X17: the "Steps" warning badge of a list entry and the steps count
    printed on it never disagree: the badge is there exactly when a count
    is printed and it is positive; a route that comes without a surface
    summary gets no badge and a dash for the count. *)
Theorem steps_badge_matches_count (s : State) (r : Route) (k : nat) :
  (row_steps_badge (routeRow s r k) = true <->
   exists n, row_steps (routeRow s r k) = Some n /\ 0 < n) /\
  (osm_summary r = None ->
   row_steps_badge (routeRow s r k) = false /\ row_steps (routeRow s r k) = None).
Proof.
  unfold routeRow, hasSteps. simpl.
  destruct (osm_summary r) as [osm|]; simpl.
  - split; [|discriminate]. split.
    + intros H. exists (steps_count osm). split; [reflexivity|].
      apply Qnot_le_lt. intros Hle. apply Qle_bool_iff in Hle.
      rewrite Hle in H. discriminate.
    + intros (n & Hn & Hpos). inversion Hn; subst.
      destruct (Qle_bool (steps_count osm) 0) eqn:E; [|reflexivity].
      apply Qle_bool_iff in E. exfalso. apply (Qlt_not_le _ _ Hpos E).
  - split; [|auto]. split; [discriminate|].
    intros (n & Hn & _). discriminate.
Qed.

(** X18: after a failed request nothing of an earlier result is left on
    screen: the list card shows its placeholder and no entry, no polyline
    is drawn, both detail cards are gone, and the map is not re-fitted. *)
Theorem failure_clears_screen
    (net : FetchOutcome) (s : State) (a b : LatLng) :
  failed net -> start s = Some a -> end_ s = Some b ->
  placeholder (final_state (fetchRoutes net s)) = true /\
  routeRows (final_state (fetchRoutes net s)) = [] /\
  polylines (final_state (fetchRoutes net s)) = [] /\
  all_none (project (final_state (fetchRoutes net s))) /\
  FitToRoutes (routes (final_state (fetchRoutes net s))) = None /\
  markers (final_state (fetchRoutes net s)) = [a; b].
Proof.
  intros Hf Ha Hb.
  destruct (fetchRoutes_both_set net s a b Ha Hb) as [-> _].
  destruct (settled_failed net s Hf) as [Hr [Hs _]].
  destruct (settled_points net s) as [Hp Hq].
  set (s' := final_state (fetchRoutes_settled net s)) in *.
  unfold placeholder, routeRows, polylines, markers.
  rewrite Hr, Hp, Hq, Ha, Hb.
  repeat split; try reflexivity;
    unfold project, elevationChart, surfaceDetails; rewrite Hs; reflexivity.
Qed.

Lemma failure_clears_screen_witness :
  failed (answer 500 None) /\
  routeRows (final_state (fetchRoutes (answer 500 None) both_set)) = [] /\
  polylines (final_state (fetchRoutes (answer 500 None) both_set)) = [].
Proof.
  assert (Hf : failed (answer 500 None)) by (left; reflexivity).
  destruct (failure_clears_screen (answer 500 None) both_set belfast queens
              Hf eq_refl eq_refl) as [_ [H1 [H2 _]]].
  split; [exact Hf|]. split; [exact H1 | exact H2].
Defined.
